(** * Nav: context resolution, class composition and prop forwarding

    A shallow embedding of [src/Nav.tsx] of react-bootstrap: the render
    function [Nav], the [justify] prop-type validator and the default
    props, together with the JavaScript pieces they rest on (object
    literals with computed keys, object rest/spread, template literals).

    Conventions.
    - A props object is a finite map from prop names to values; a name
      that is not in the map reads as [undefined].
    - The fields declared by [NavProps] are read at their declared types
      ([boolean], [string], ['tabs' | 'pills']); the accessors below give
      [None] for [undefined].
    - The class dictionary handed to [classNames] is an association list:
      its order is the order of the class string. *)

From Stdlib Require Import String Ascii List ZArith Bool Lia.
From stdpp Require Import base strings gmap list.
Import ListNotations.
Open Scope string_scope.
Open Scope list_scope.

(** ** Strings *)

Module Str.

(** Characters of a string, last one first. *)
Definition rchars (s : string) : list ascii := rev (list_ascii_of_string s).

End Str.

(** ** Values and props objects *)

(** What a prop can hold. Numbers are the integral event keys. Functions,
    elements and element types are compared by identity only.
    [VNotifier] is the selection callback made by [useUncontrolled]; it
    remembers the caller's own [onSelect]. *)
#[warnings="-register-all"]
Inductive value : Type :=
| VBool (b : bool)
| VString (s : string)
| VNumber (n : Z)
| VObject (id : nat)
| VNotifier (caller : option value).

Abbreviation Props := (gmap string value).

(** JavaScript truthiness of a property read ([None] is [undefined]). *)
Definition truthy (v : option value) : bool :=
  match v with
  | None => false
  | Some (VBool b) => b
  | Some (VString s) => negb (String.eqb s "")
  | Some (VNumber n) => negb (Z.eqb n 0)
  | Some (VObject _) => true
  | Some (VNotifier _) => true
  end.

(** [variant?: 'tabs' | 'pills'] *)
Inductive Variant : Type := tabs | pills.

Definition Variant_to_string (v : Variant) : string :=
  match v with tabs => "tabs" | pills => "pills" end.

Definition get_bool (p : Props) (name : string) : option bool :=
  match p !! name with Some (VBool b) => Some b | _ => None end.

Definition get_string (p : Props) (name : string) : option string :=
  match p !! name with Some (VString s) => Some s | _ => None end.

Definition get_variant (p : Props) (name : string) : option Variant :=
  match p !! name with
  | Some (VString s) =>
      if String.eqb s "tabs" then Some tabs
      else if String.eqb s "pills" then Some pills
      else None
  | _ => None
  end.

(** [`${x}`] for a string that may be [undefined]. *)
Definition tpl (x : option string) : string :=
  match x with Some s => s | None => "undefined" end.

(** [!!x] for a string that may be [undefined]. *)
Definition nonempty (x : option string) : bool :=
  match x with Some s => negb (String.eqb s "") | None => false end.

Definition is_true (x : option bool) : bool :=
  match x with Some b => b | None => false end.

Definition is_some {A} (x : option A) : bool :=
  match x with Some _ => true | None => false end.

(** ** Object literals with computed keys, and [classNames] *)

Module ClassDict.

Definition t : Type := list (string * bool).

(** [d[k] = v]: a key that is already there keeps its place and takes
    the new value, a new key goes last. (JavaScript enumerates keys that
    are array indices before the others; in the literal of [Nav] only
    the first key, [bsPrefix], has no hyphen, so insertion order is the
    enumeration order.) *)
Fixpoint set (k : string) (v : bool) (d : t) : t :=
  match d with
  | [] => [(k, v)]
  | (k', v') :: d' =>
      if String.eqb k' k then (k', v) :: d' else (k', v') :: set k v d'
  end.

Fixpoint get (d : t) (k : string) : option bool :=
  match d with
  | [] => None
  | (k', v') :: d' => if String.eqb k' k then Some v' else get d' k
  end.

(** [{ [k1]: v1, [k2]: v2, ... }], entries evaluated left to right. *)
Definition literal (entries : list (string * bool)) : t :=
  fold_left (fun d e => set (fst e) (snd e) d) entries [].

(** The keys whose value is truthy, in enumeration order. *)
Definition truthy_keys (d : t) : list string :=
  map fst (List.filter snd d).

End ClassDict.

(** Modelled from the spec: [classNames] is imported from the
    [classnames] package and is not part of the sources. As in section
    4.3, a class of the dictionary is added exactly when its condition
    holds; the caller's string, when it is not empty, comes first, and
    the parts are joined by single spaces.

    An argument is a string (or [undefined]), or a dictionary. *)
Inductive ClassArg : Type :=
| ArgString (s : option string)
| ArgDict (d : ClassDict.t).

Definition classes_of_arg (a : ClassArg) : list string :=
  match a with
  | ArgString None => []
  | ArgString (Some s) => if String.eqb s "" then [] else [s]
  | ArgDict d => ClassDict.truthy_keys d
  end.

(** The [classes] array of [classNames]: falsy arguments are skipped, a
    string is pushed as it is, a dictionary pushes its truthy keys. *)
Definition classList (args : list ClassArg) : list string :=
  flat_map classes_of_arg args.

(** [classes.join(' ')] *)
Definition classNames (args : list ClassArg) : string :=
  String.concat " " (classList args).

(** ** Ambient contexts and collaborators *)

(** Modelled from the spec: [NavbarContext] and [CardContext] are
    declared outside the sources; section 6 gives each of them one
    string, which [Nav] reads as [bsPrefix] and [cardHeaderBsPrefix]. *)
Module NavbarContext.
Record t : Type := { bsPrefix : string }.
End NavbarContext.

Module CardContext.
Record t : Type := { cardHeaderBsPrefix : string }.
End CardContext.

(** What the hooks of one render read from the surrounding tree:
    [useContext(NavbarContext)], [useContext(CardContext)] ([None] when
    there is no provider above) and the theme's prefix resolver
    [useBootstrapPrefix(prefix, defaultPrefix)], which lives in
    [ThemeProvider] and is taken here as it comes. *)
Record Ambient : Type := {
  navbarContext : option NavbarContext.t;
  cardContext : option CardContext.t;
  useBootstrapPrefix : option string -> string -> string;
}.

(** ** Selection state: [useUncontrolled] *)

(** Modelled from the spec: [useUncontrolled] is imported from the
    [uncontrollable] package and is not part of the sources. Following
    section 4.1: with [activeKey] supplied the supplied value is used
    verbatim and the held value is not consulted; without it the held
    value is used, which starts as [defaultActiveKey] (or absent). The
    notifier put under [onSelect] wraps the caller's own. Every other
    prop is returned as it came; [defaultActiveKey] is consumed. *)
Module Uncontrolled.

(** The value held by one mounted component. *)
Definition Held : Type := option value.

Definition mount (props : Props) : Held := props !! "defaultActiveKey".

Definition controlled (props : Props) : bool := is_some (props !! "activeKey").

Definition resolve (props : Props) (held : Held) : option value :=
  match props !! "activeKey" with
  | Some v => Some v
  | None => held
  end.

Definition useUncontrolled (props : Props) (held : Held) : Props :=
  let rest := delete "activeKey" (delete "defaultActiveKey" props) in
  let withKey :=
    match resolve props held with
    | Some v => <["activeKey" := v]> rest
    | None => rest
    end in
  <["onSelect" := VNotifier (props !! "onSelect")]> withKey.

(** One call of the caller's [onSelect]. *)
Record Notification : Type := { callee : value; selected : value }.

(** A selection event with key [k]: the caller's notifier, when there is
    one, is called once with [k]; in uncontrolled mode the held value
    becomes [k], in controlled mode nothing is remembered. *)
Definition select (props : Props) (held : Held) (k : value)
  : Held * list Notification :=
  let calls :=
    match props !! "onSelect" with
    | Some f => [ {| callee := f; selected := k |} ]
    | None => []
    end in
  (if controlled props then held else Some k, calls).

(** A run of selection events under the same props. *)
Fixpoint selects (props : Props) (held : Held) (ks : list value)
  : Held * list Notification :=
  match ks with
  | [] => (held, [])
  | k :: ks' =>
      let '(held1, calls1) := select props held k in
      let '(held2, calls2) := selects props held1 ks' in
      (held2, calls1 ++ calls2)
  end.

End Uncontrolled.

(** ** The component *)

(** The element [Nav] returns: [AbstractNav] with its attribute object
    and its children. In the attribute object the spread [{...props}]
    comes last, so it is the left operand of the left-biased union. *)
Record AbstractNavElement : Type := {
  attributes : gmap string value;
  children : option value;
}.

(** The three locals set by the context branch of [Nav]. *)
Record Hosting : Type := {
  navbarBsPrefix : option string;
  cardHeaderBsPrefix : option string;
  isNavbar : bool;
}.

(** Lines 141-153. *)
Definition resolveHosting (amb : Ambient) (navbar : option bool) : Hosting :=
  match navbarContext amb with
  | Some nc =>
      {| navbarBsPrefix := Some (NavbarContext.bsPrefix nc);
         cardHeaderBsPrefix := None;
         isNavbar := match navbar with None => true | Some b => b end |}
  | None =>
      match cardContext amb with
      | Some cc =>
          {| navbarBsPrefix := None;
             cardHeaderBsPrefix := Some (CardContext.cardHeaderBsPrefix cc);
             isNavbar := false |}
      | None =>
          {| navbarBsPrefix := None; cardHeaderBsPrefix := None; isNavbar := false |}
      end
  end.

(** The class names used as keys at lines 161-167. *)
Definition navClass (h : Hosting) : string := tpl (navbarBsPrefix h) +:+ "-nav".
Definition navScrollClass (h : Hosting) : string :=
  tpl (navbarBsPrefix h) +:+ "-nav-scroll".
Definition variantSuffix (variant : option Variant) : string :=
  "-" +:+ tpl (Variant_to_string <$> variant).
Definition cardHeaderClass (h : Hosting) (variant : option Variant) : string :=
  tpl (cardHeaderBsPrefix h) +:+ variantSuffix variant.
Definition variantClass (prefix : string) (variant : option Variant) : string :=
  prefix +:+ variantSuffix variant.
Definition fillClass (prefix : string) : string := prefix +:+ "-fill".
Definition justifiedClass (prefix : string) : string := prefix +:+ "-justified".

(** The entries of the object literal at lines 160-168, in source order. *)
Definition classEntries (prefix : string) (h : Hosting)
    (variant : option Variant) (fill justify navbarScroll : option bool)
  : list (string * bool) :=
  [ (prefix, negb (isNavbar h));
    (navClass h, isNavbar h);
    (navScrollClass h, isNavbar h && is_true navbarScroll);
    (cardHeaderClass h variant, nonempty (cardHeaderBsPrefix h));
    (variantClass prefix variant, is_some variant);
    (fillClass prefix, is_true fill);
    (justifiedClass prefix, is_true justify) ].

(** The names taken out of the hook's result by the destructuring at
    lines 125-136; [props] is what is left. *)
Definition destructured : list string :=
  [ "as"; "bsPrefix"; "variant"; "fill"; "justify"; "navbar";
    "navbarScroll"; "className"; "children"; "activeKey" ].

Definition restProps (o : Props) : Props :=
  fold_right (fun name acc => delete name acc) o destructured.

(** [{ k: v }] for an attribute whose value may be [undefined]. *)
Definition attr (name : string) (v : option value) : gmap string value :=
  match v with Some x => {[ name := x ]} | None => ∅ end.

(** Everything one render of [Nav] computes. *)
Record Render : Type := {
  ownPrefix : string;
  hosting : Hosting;
  classDict : ClassDict.t;
  className : string;
  element : AbstractNavElement;
}.

(** Lines 124-174. [held] is the value kept by [useUncontrolled] for this
    component, [ref] the forwarded ref. *)
Definition render (amb : Ambient) (held : Uncontrolled.Held)
    (uncontrolledProps : Props) (ref : option value) : Render :=
  let o := Uncontrolled.useUncontrolled uncontrolledProps held in
  let as_ := default (VString "div") (o !! "as") in
  let initialBsPrefix := get_string o "bsPrefix" in
  let variant := get_variant o "variant" in
  let fill := get_bool o "fill" in
  let justify := get_bool o "justify" in
  let navbar := get_bool o "navbar" in
  let navbarScroll := get_bool o "navbarScroll" in
  let className := get_string o "className" in
  let children := o !! "children" in
  let activeKey := o !! "activeKey" in
  let props := restProps o in
  let prefix := useBootstrapPrefix amb initialBsPrefix "nav" in
  let h := resolveHosting amb navbar in
  let dict :=
    ClassDict.literal (classEntries prefix h variant fill justify navbarScroll) in
  let cls := classNames [ ArgString className; ArgDict dict ] in
  {| ownPrefix := prefix;
     hosting := h;
     classDict := dict;
     className := cls;
     element :=
       {| attributes :=
            props ∪ (attr "className" (Some (VString cls))
                     ∪ attr "activeKey" activeKey
                     ∪ attr "ref" ref
                     ∪ attr "as" (Some as_));
          children := children |} |}.

Definition Nav (amb : Ambient) (held : Uncontrolled.Held)
    (uncontrolledProps : Props) (ref : option value) : AbstractNavElement :=
  element (render amb held uncontrolledProps ref).

(** The derived views the statements below speak about. *)
Definition isHostedInNavbar (amb : Ambient) (held : Uncontrolled.Held)
    (p : Props) : bool :=
  isNavbar (hosting (render amb held p None)).

(** The class set the component composes: the truthy keys of the class
    dictionary, in the order of the class string. The caller's own
    [className] is the other argument of [classNames] and is carried in
    front of them as it is. *)
Definition derivedClasses (amb : Ambient) (held : Uncontrolled.Held)
    (p : Props) : list string :=
  ClassDict.truthy_keys (classDict (render amb held p None)).

(** ** Default props and prop-type validation *)

(** [defaultProps], and how React fills them in: a default applies where
    the incoming prop is [undefined]. *)
Definition defaultProps : Props :=
  {[ "justify" := VBool false; "fill" := VBool false ]}.

Definition resolveDefaultProps (p : Props) : Props := p ∪ defaultProps.

Inductive PropError : Type :=
| InvalidPropType (propName expected : string)
| ConfigurationError (message : string).

Definition Validator : Type := Props -> string -> option PropError.

(** [PropTypes.bool]: an absent prop passes, a present one has to be a
    boolean. *)
Definition PropTypes_bool : Validator := fun props propName =>
  match props !! propName with
  | None => None
  | Some (VBool _) => None
  | Some _ => Some (InvalidPropType propName "boolean")
  end.

(** Lines 76-78, the second validator of [justify]. *)
Definition justifyNavbar : Validator := fun props _ =>
  if truthy (props !! "justify") && truthy (props !! "navbar")
  then Some (ConfigurationError "justify navbar `Nav`s are not supported")
  else None.

(** [all(...validators)]: the first error wins. *)
Fixpoint all (validators : list Validator) : Validator := fun props propName =>
  match validators with
  | [] => None
  | v :: vs =>
      match v props propName with
      | Some e => Some e
      | None => all vs props propName
      end
  end.

Definition propTypes_justify : Validator := all [ PropTypes_bool; justifyNavbar ].

(** Validation of a configuration: the validator of [justify] on the
    props with their defaults filled in. *)
Definition validate (p : Props) : option PropError :=
  propTypes_justify (resolveDefaultProps p) "justify".

(** ** The props the spec counts as recognised *)

(** The destructured names and the two consumed by the hook. *)
Definition recognized : list string :=
  destructured ++ [ "defaultActiveKey"; "onSelect" ].

(** ** Surroundings used in the examples *)

Module Sample.

(** A prefix resolver without theme overrides: the explicit prefix when
    there is one, the default otherwise. *)
Definition theme (prefix : option string) (defaultPrefix : string) : string :=
  if nonempty prefix then tpl prefix else defaultPrefix.

Definition freestanding : Ambient :=
  {| navbarContext := None; cardContext := None; useBootstrapPrefix := theme |}.

Definition inNavbar : Ambient :=
  {| navbarContext := Some {| NavbarContext.bsPrefix := "navbar" |};
     cardContext := None;
     useBootstrapPrefix := theme |}.

Definition inCardHeader : Ambient :=
  {| navbarContext := None;
     cardContext := Some {| CardContext.cardHeaderBsPrefix := "card-header" |};
     useBootstrapPrefix := theme |}.

Definition inNavbarAndCardHeader : Ambient :=
  {| navbarContext := Some {| NavbarContext.bsPrefix := "navbar" |};
     cardContext := Some {| CardContext.cardHeaderBsPrefix := "card-header" |};
     useBootstrapPrefix := theme |}.

End Sample.

(** The same surroundings with another card context. *)
Definition withCardContext (amb : Ambient) (c : option CardContext.t) : Ambient :=
  {| navbarContext := navbarContext amb;
     cardContext := c;
     useBootstrapPrefix := useBootstrapPrefix amb |}.

(** * Properties *)

(** ** Strings *)

Module StrFacts.

Lemma chars_app (a b : string) :
  list_ascii_of_string (a +:+ b) = list_ascii_of_string a ++ list_ascii_of_string b.
Proof.
  induction a as [|c a IH]; [reflexivity|].
  change (String c a +:+ b) with (String c (a +:+ b)). simpl. now rewrite IH.
Qed.

Lemma rchars_app (a b : string) : Str.rchars (a +:+ b) = Str.rchars b ++ Str.rchars a.
Proof. unfold Str.rchars. rewrite chars_app. apply rev_app_distr. Qed.

Lemma length_app (a b : string) :
  String.length (a +:+ b) = String.length a + String.length b.
Proof.
  induction a as [|c a IH]; [reflexivity|].
  change (String c a +:+ b) with (String c (a +:+ b)). simpl. now rewrite IH.
Qed.

Lemma app_cons c (a b : string) : String c a +:+ b = String c (a +:+ b).
Proof. reflexivity. Qed.

Lemma app_empty_r (a : string) : a +:+ "" = a.
Proof.
  induction a as [|c a IH]; [reflexivity|]. now rewrite app_cons, IH.
Qed.

(** A string is never equal to itself followed by a non-empty suffix. *)
Lemma not_app_self (a b : string) : b <> "" -> a +:+ b <> a.
Proof.
  intros Hb H. apply (f_equal String.length) in H. rewrite length_app in H.
  destruct b; [now apply Hb | simpl in H; lia].
Qed.

End StrFacts.

(** Two strings that end in different literals are different: compare
    the characters from the last one backwards. *)
Ltac suffix_clash :=
  let H := fresh "H" in
  intros H; apply (f_equal Str.rchars) in H;
  repeat rewrite StrFacts.rchars_app in H; simpl in H; congruence.

(** ** Class dictionaries *)

Module ClassDictFacts.
Import ClassDict.

Lemma get_cons_eq k v (d : t) : get ((k, v) :: d) k = Some v.
Proof. simpl. now rewrite String.eqb_refl. Qed.

Lemma get_cons_ne k k' v (d : t) : k' <> k -> get ((k', v) :: d) k = get d k.
Proof. intros H. simpl. apply String.eqb_neq in H. now rewrite H. Qed.

Lemma get_app (d1 d2 : t) k :
  get (d1 ++ d2) k = match get d1 k with Some b => Some b | None => get d2 k end.
Proof.
  induction d1 as [|[k' v'] d1 IH]; simpl; [reflexivity|].
  destruct (String.eqb k' k); [reflexivity | exact IH].
Qed.

Lemma get_set k v (d : t) k' :
  get (set k v d) k' = if String.eqb k k' then Some v else get d k'.
Proof.
  induction d as [|[k0 v0] d IH]; simpl; [reflexivity|].
  destruct (String.eqb k0 k) eqn:E0; simpl.
  - apply String.eqb_eq in E0. subst k0.
    destruct (String.eqb k k'); reflexivity.
  - destruct (String.eqb k0 k') eqn:E1.
    + apply String.eqb_eq in E1. subst k0.
      rewrite String.eqb_sym, E0. reflexivity.
    + exact IH.
Qed.

Lemma keys_set k v (d : t) :
  map fst (set k v d) = if is_some (get d k) then map fst d else map fst d ++ [k].
Proof.
  induction d as [|[k0 v0] d IH]; simpl; [reflexivity|].
  destruct (String.eqb k0 k) eqn:E; simpl; [reflexivity|].
  rewrite IH. destruct (is_some (get d k)); reflexivity.
Qed.

Lemma get_None_keys (d : t) k : get d k = None -> ~ In k (map fst d).
Proof.
  induction d as [|[k0 v0] d IH]; simpl; [tauto|].
  destruct (String.eqb k0 k) eqn:E; [discriminate|].
  apply String.eqb_neq in E. intros Hg [H|H]; [congruence | now apply IH].
Qed.

Lemma NoDup_set k v (d : t) : NoDup (map fst d) -> NoDup (map fst (set k v d)).
Proof.
  intros Hd. rewrite keys_set. destruct (get d k) eqn:E; simpl; [exact Hd|].
  apply NoDup_app. split; [exact Hd|]. split; [|apply NoDup_singleton].
  intros x Hx Hin. apply list_elem_of_In in Hx, Hin.
  destruct Hin as [<-|[]]. now apply (get_None_keys d k).
Qed.

Lemma NoDup_fold (es : list (string * bool)) (d : t) :
  NoDup (map fst d) ->
  NoDup (map fst (fold_left (fun d e => set (fst e) (snd e) d) es d)).
Proof.
  revert d. induction es as [|e es IH]; intros d Hd; simpl; [exact Hd|].
  apply IH. now apply NoDup_set.
Qed.

Lemma NoDup_literal es : NoDup (map fst (literal es)).
Proof. apply NoDup_fold. simpl. constructor. Qed.

Lemma get_fold (es : list (string * bool)) (d : t) k :
  get (fold_left (fun d e => set (fst e) (snd e) d) es d) k =
  match get (rev es) k with Some b => Some b | None => get d k end.
Proof.
  revert d. induction es as [|[k0 v0] es IH]; intros d; simpl; [reflexivity|].
  rewrite IH, get_app, get_set. simpl.
  destruct (get (rev es) k); [reflexivity|].
  destruct (String.eqb k0 k); reflexivity.
Qed.

(** The value of a key of an object literal is the one of the last entry
    that has this key. *)
Lemma get_literal es k : get (literal es) k = get (rev es) k.
Proof.
  unfold literal. rewrite get_fold. simpl. now destruct (get (rev es) k).
Qed.

Lemma In_truthy_keys (d : t) k :
  NoDup (map fst d) -> (In k (truthy_keys d) <-> get d k = Some true).
Proof.
  unfold truthy_keys.
  induction d as [|[k0 v0] d IH]; simpl; intros Hd.
  - split; [tauto | discriminate].
  - apply NoDup_cons in Hd as [Hk0 Hd]. specialize (IH Hd).
    destruct (String.eqb k0 k) eqn:E.
    + apply String.eqb_eq in E. subst k0. split.
      * destruct v0; simpl; [reflexivity|]. intros Hin. exfalso. apply Hk0.
        apply list_elem_of_In. apply in_map_iff in Hin as [[k1 v1] [Hk1 Hin]].
        apply filter_In in Hin as [Hin _]. simpl in Hk1. subst k1.
        apply in_map_iff. now exists (k, v1).
      * intros [= ->]. simpl. now left.
    + apply String.eqb_neq in E. rewrite <- IH.
      destruct v0; simpl; [|reflexivity]. split; [|tauto].
      intros [H|H]; [congruence | exact H].
Qed.

(** A class is among the truthy keys of an object literal exactly when
    the last entry with that key is truthy. *)
Lemma In_truthy_keys_literal es k :
  In k (truthy_keys (literal es)) <-> get (rev es) k = Some true.
Proof. rewrite <- get_literal. apply In_truthy_keys, NoDup_literal. Qed.

End ClassDictFacts.

(** ** The hook leaves the other props alone *)

Module HookFacts.
Import Uncontrolled.

Lemma lookup_other (p : Props) held k :
  k <> "activeKey" -> k <> "defaultActiveKey" -> k <> "onSelect" ->
  useUncontrolled p held !! k = p !! k.
Proof.
  intros Ha Hd Ho. unfold useUncontrolled.
  rewrite lookup_insert_ne by congruence.
  destruct (resolve p held).
  - rewrite lookup_insert_ne by congruence.
    rewrite !lookup_delete_ne by congruence. reflexivity.
  - rewrite !lookup_delete_ne by congruence. reflexivity.
Qed.

Lemma lookup_activeKey (p : Props) held :
  useUncontrolled p held !! "activeKey" = resolve p held.
Proof.
  unfold useUncontrolled. rewrite lookup_insert_ne by discriminate.
  destruct (resolve p held).
  - apply lookup_insert_eq.
  - apply lookup_delete_eq.
Qed.

Lemma get_bool_other (p : Props) held k :
  k <> "activeKey" -> k <> "defaultActiveKey" -> k <> "onSelect" ->
  get_bool (useUncontrolled p held) k = get_bool p k.
Proof. intros. unfold get_bool. now rewrite lookup_other. Qed.

Lemma get_string_other (p : Props) held k :
  k <> "activeKey" -> k <> "defaultActiveKey" -> k <> "onSelect" ->
  get_string (useUncontrolled p held) k = get_string p k.
Proof. intros. unfold get_string. now rewrite lookup_other. Qed.

Lemma get_variant_other (p : Props) held k :
  k <> "activeKey" -> k <> "defaultActiveKey" -> k <> "onSelect" ->
  get_variant (useUncontrolled p held) k = get_variant p k.
Proof. intros. unfold get_variant. now rewrite lookup_other. Qed.

End HookFacts.

(** ** What a render computes, in terms of the incoming props *)

Module RenderFacts.

Section OneRender.
Variables (amb : Ambient) (held : Uncontrolled.Held) (p : Props).

Lemma hosting_render ref :
  hosting (render amb held p ref) = resolveHosting amb (get_bool p "navbar").
Proof. simpl. now rewrite HookFacts.get_bool_other. Qed.

Lemma ownPrefix_render ref :
  ownPrefix (render amb held p ref) =
  useBootstrapPrefix amb (get_string p "bsPrefix") "nav".
Proof. simpl. now rewrite HookFacts.get_string_other. Qed.

Lemma classDict_render ref :
  classDict (render amb held p ref) =
  ClassDict.literal
    (classEntries (ownPrefix (render amb held p ref))
       (hosting (render amb held p ref))
       (get_variant p "variant") (get_bool p "fill") (get_bool p "justify")
       (get_bool p "navbarScroll")).
Proof.
  simpl. now rewrite HookFacts.get_variant_other, !HookFacts.get_bool_other.
Qed.

Lemma className_render ref :
  className (render amb held p ref) =
  classNames [ ArgString (get_string p "className");
               ArgDict (classDict (render amb held p ref)) ].
Proof. simpl. now rewrite !HookFacts.get_string_other. Qed.

Lemma isHostedInNavbar_eq :
  isHostedInNavbar amb held p =
  match navbarContext amb with
  | Some _ => match get_bool p "navbar" with Some b => b | None => true end
  | None => false
  end.
Proof.
  unfold isHostedInNavbar. rewrite hosting_render. unfold resolveHosting.
  destruct (navbarContext amb); [reflexivity|].
  destruct (cardContext amb); reflexivity.
Qed.

(** Membership in the derived classes, by the last entry of the
    literal that carries the class. *)
Lemma In_derivedClasses k :
  In k (derivedClasses amb held p) <->
  ClassDict.get
    (rev (classEntries (ownPrefix (render amb held p None))
            (hosting (render amb held p None))
            (get_variant p "variant") (get_bool p "fill")
            (get_bool p "justify") (get_bool p "navbarScroll"))) k
  = Some true.
Proof.
  unfold derivedClasses. rewrite classDict_render.
  apply ClassDictFacts.In_truthy_keys_literal.
Qed.
End OneRender.

(** Neither the ref nor the held value takes part in the classes. *)
Lemma classDict_indep amb held p ref held' ref' :
  classDict (render amb held p ref) = classDict (render amb held' p ref').
Proof. now rewrite !classDict_render, !ownPrefix_render, !hosting_render. Qed.

End RenderFacts.

(** ** Class names that cannot coincide *)

Module Distinct.

Lemma variantSuffix_cases variant :
  variantSuffix variant = "-undefined" \/ variantSuffix variant = "-tabs"
  \/ variantSuffix variant = "-pills".
Proof. destruct variant as [[|]|]; simpl; auto. Qed.

Section Suffixes.
Variables (x : string) (v : option Variant) (h h' : Hosting).

(** Against the scroll class. *)
Lemma justified_navScroll : justifiedClass x <> navScrollClass h.
Proof. unfold justifiedClass, navScrollClass. suffix_clash. Qed.

Lemma fill_navScroll : fillClass x <> navScrollClass h.
Proof. unfold fillClass, navScrollClass. suffix_clash. Qed.

Lemma variant_navScroll : variantClass x v <> navScrollClass h.
Proof.
  unfold variantClass, navScrollClass.
  destruct (variantSuffix_cases v) as [-> | [-> | ->]]; suffix_clash.
Qed.

Lemma cardHeader_navScroll : cardHeaderClass h' v <> navScrollClass h.
Proof.
  unfold cardHeaderClass, navScrollClass.
  destruct (variantSuffix_cases v) as [-> | [-> | ->]]; suffix_clash.
Qed.

(** Against the navbar base class. *)
Lemma justified_nav : justifiedClass x <> navClass h.
Proof. unfold justifiedClass, navClass. suffix_clash. Qed.

Lemma fill_nav : fillClass x <> navClass h.
Proof. unfold fillClass, navClass. suffix_clash. Qed.

Lemma variant_nav : variantClass x v <> navClass h.
Proof.
  unfold variantClass, navClass.
  destruct (variantSuffix_cases v) as [-> | [-> | ->]]; suffix_clash.
Qed.

Lemma cardHeader_nav : cardHeaderClass h' v <> navClass h.
Proof.
  unfold cardHeaderClass, navClass.
  destruct (variantSuffix_cases v) as [-> | [-> | ->]]; suffix_clash.
Qed.

Lemma navScroll_nav : navScrollClass h' <> navClass h.
Proof. unfold navScrollClass, navClass. suffix_clash. Qed.

(** Against the own prefix: the classes built on it are longer. *)
Lemma justified_self : justifiedClass x <> x.
Proof. apply StrFacts.not_app_self. discriminate. Qed.

Lemma fill_self : fillClass x <> x.
Proof. apply StrFacts.not_app_self. discriminate. Qed.

Lemma variant_self : variantClass x v <> x.
Proof.
  apply StrFacts.not_app_self.
  destruct (variantSuffix_cases v) as [-> | [-> | ->]]; discriminate.
Qed.
End Suffixes.

End Distinct.

Create HintDb classnames discriminated.
#[export] Hint Resolve
  Distinct.justified_navScroll Distinct.fill_navScroll
  Distinct.variant_navScroll Distinct.cardHeader_navScroll
  Distinct.justified_nav Distinct.fill_nav Distinct.variant_nav
  Distinct.cardHeader_nav Distinct.navScroll_nav
  Distinct.justified_self Distinct.fill_self Distinct.variant_self
  : classnames.

(** Reads a key off the reversed entries: the entries with another class
    name are skipped, the first one with this name answers. *)
Ltac last_entry k :=
  repeat (rewrite (ClassDictFacts.get_cons_ne k)
            by (auto with classnames; congruence));
  rewrite (ClassDictFacts.get_cons_eq k).

(** ** Navbar hosting *)

(** C6. [isHostedInNavbar] is true only when the navbar context is
    present; with the context present it is the [navbar] prop when that
    prop is supplied and true otherwise; without the context it is false
    whatever the [navbar] prop says. *)
Theorem isHostedInNavbar_from_context amb held (p : Props) :
  (isHostedInNavbar amb held p = true -> is_Some (navbarContext amb)) /\
  (is_Some (navbarContext amb) ->
     isHostedInNavbar amb held p =
       match get_bool p "navbar" with Some b => b | None => true end) /\
  (navbarContext amb = None -> isHostedInNavbar amb held p = false).
Proof.
  rewrite RenderFacts.isHostedInNavbar_eq.
  destruct (navbarContext amb) as [nc|].
  - split; [eauto|]. split; [reflexivity | discriminate].
  - split; [discriminate|]. split; [|reflexivity].
    intros [x Hx]. discriminate Hx.
Qed.

(** ** The scroll class *)

(** C5. Inside a navbar context with prefix [x], the class
    [x-nav-scroll] is in the composed class set exactly when the
    component is navbar-hosted (the [navbar] prop is true or not
    supplied) and [navbarScroll] is true. Outside a navbar context the
    component is not navbar-hosted and the scroll class is absent
    whatever [navbarScroll] is: the name the entry then carries,
    [undefined-nav-scroll], is not in the set, and no class of the form
    [x-nav-scroll] is, unless it is the own prefix itself. *)
Theorem navScroll_class_iff amb held (p : Props) :
  (forall nc, navbarContext amb = Some nc ->
     isHostedInNavbar amb held p =
       (match get_bool p "navbar" with Some b => b | None => true end)
     /\
     (In (NavbarContext.bsPrefix nc +:+ "-nav-scroll") (derivedClasses amb held p)
      <->
      (match get_bool p "navbar" with Some b => b | None => true end) = true
      /\ get_bool p "navbarScroll" = Some true))
  /\
  (navbarContext amb = None ->
     isHostedInNavbar amb held p = false
     /\ ~ In "undefined-nav-scroll" (derivedClasses amb held p)
     /\ forall x, In (x +:+ "-nav-scroll") (derivedClasses amb held p) ->
          useBootstrapPrefix amb (get_string p "bsPrefix") "nav"
          = x +:+ "-nav-scroll").
Proof.
  split.
  - intros nc Hnc.
    assert (Hh : hosting (render amb held p None) =
                 {| navbarBsPrefix := Some (NavbarContext.bsPrefix nc);
                    cardHeaderBsPrefix := None;
                    isNavbar := match get_bool p "navbar" with
                                | None => true | Some b => b end |}).
    { rewrite RenderFacts.hosting_render. unfold resolveHosting. now rewrite Hnc. }
    split; [rewrite RenderFacts.isHostedInNavbar_eq, Hnc; reflexivity|].
    rewrite RenderFacts.In_derivedClasses, Hh.
    set (h := Build_Hosting _ _ _). set (pre := ownPrefix _).
    unfold classEntries. cbn [rev app].
    change (NavbarContext.bsPrefix nc +:+ "-nav-scroll") with (navScrollClass h).
    last_entry (navScrollClass h). simpl.
    destruct (get_bool p "navbar") as [[|]|],
             (get_bool p "navbarScroll") as [[|]|]; simpl;
      split; try tauto; try (intros [? ?]); congruence.
  - intros Hctx.
    assert (Hhost : isNavbar (hosting (render amb held p None)) = false).
    { rewrite RenderFacts.hosting_render. unfold resolveHosting.
      rewrite Hctx. now destruct (cardContext amb). }
    assert (Hpre : navbarBsPrefix (hosting (render amb held p None)) = None).
    { rewrite RenderFacts.hosting_render. unfold resolveHosting.
      rewrite Hctx. now destruct (cardContext amb). }
    split; [exact Hhost|].
    rewrite <- (RenderFacts.ownPrefix_render amb held p None).
    revert Hhost Hpre. set (h := hosting _). intros Hhost Hpre.
    assert (Hscroll : navScrollClass h = "undefined-nav-scroll").
    { unfold navScrollClass. now rewrite Hpre. }
    split.
    + rewrite <- Hscroll, RenderFacts.In_derivedClasses. fold h.
      set (pre := ownPrefix _).
      unfold classEntries. cbn [rev app]. last_entry (navScrollClass h).
      rewrite Hhost. discriminate.
    + intros x. rewrite RenderFacts.In_derivedClasses. fold h.
      set (pre := ownPrefix _).
      set (h' := {| navbarBsPrefix := Some x; cardHeaderBsPrefix := None;
                    isNavbar := false |}).
      change (x +:+ "-nav-scroll") with (navScrollClass h').
      unfold classEntries. cbn [rev app].
      rewrite ClassDictFacts.get_cons_ne by apply Distinct.justified_navScroll.
      rewrite ClassDictFacts.get_cons_ne by apply Distinct.fill_navScroll.
      rewrite ClassDictFacts.get_cons_ne by apply Distinct.variant_navScroll.
      rewrite ClassDictFacts.get_cons_ne by apply Distinct.cardHeader_navScroll.
      destruct (string_dec (navScrollClass h) (navScrollClass h')) as [E|E].
      * rewrite <- E, ClassDictFacts.get_cons_eq, Hhost. discriminate.
      * rewrite ClassDictFacts.get_cons_ne by exact E.
        rewrite ClassDictFacts.get_cons_ne
          by (intros E'; symmetry in E'; now apply Distinct.navScroll_nav in E').
        destruct (string_dec pre (navScrollClass h')) as [E1|E1];
          [intros _; exact E1|].
        rewrite ClassDictFacts.get_cons_ne by exact E1. discriminate.
Qed.

Lemma navScroll_class_iff_witness :
  In "navbar-nav-scroll"
     (derivedClasses Sample.inNavbar None
        ({[ "navbarScroll" := VBool true ]} : Props)).
Proof.
  apply (proj2 (proj1 (navScroll_class_iff Sample.inNavbar None
                         ({[ "navbarScroll" := VBool true ]} : Props))
                  {| NavbarContext.bsPrefix := "navbar" |} eq_refl)).
  vm_compute. split; reflexivity.
Defined.

(** ** The base class *)

(** C4, as stated, fails when the own prefix is itself the navbar class:
    inside a navbar with [navbar={false}] and [bsPrefix="navbar-nav"] the
    two base entries share one key, the later (false) one wins, and no
    base class is left. *)
Lemma base_class_lost_on_collision :
  let p : Props := {[ "navbar" := VBool false; "bsPrefix" := VString "navbar-nav" ]} in
  let r := render Sample.inNavbar None p None in
  isHostedInNavbar Sample.inNavbar None p = false /\
  ownPrefix r = "navbar-nav" /\
  navClass (hosting r) = "navbar-nav" /\
  derivedClasses Sample.inNavbar None p = [].
Proof. vm_compute. repeat split. Qed.

(** C4, amended. When the own prefix is none of the class names built
    from the ambient prefixes, exactly one base class is in the composed
    class set: the own prefix when not navbar-hosted,
    [{navbarPrefix}-nav] when navbar-hosted, and not the other one. *)
Theorem base_class_exactly_one amb held (p : Props) :
  let r := render amb held p None in
  ownPrefix r <> navClass (hosting r) ->
  ownPrefix r <> navScrollClass (hosting r) ->
  ownPrefix r <> cardHeaderClass (hosting r) (get_variant p "variant") ->
  if isHostedInNavbar amb held p
  then In (navClass (hosting r)) (derivedClasses amb held p) /\
       ~ In (ownPrefix r) (derivedClasses amb held p)
  else In (ownPrefix r) (derivedClasses amb held p) /\
       ~ In (navClass (hosting r)) (derivedClasses amb held p).
Proof.
  intros r Hnav Hscroll Hcard. subst r. unfold isHostedInNavbar.
  pose proof (RenderFacts.In_derivedClasses amb held p
                (navClass (hosting (render amb held p None)))) as Hn.
  pose proof (RenderFacts.In_derivedClasses amb held p
                (ownPrefix (render amb held p None))) as Ho.
  revert Hnav Hscroll Hcard Hn Ho.
  set (h := hosting _). set (pre := ownPrefix _). intros Hnav Hscroll Hcard.
  unfold classEntries. cbn [rev app].
  last_entry (navClass h). last_entry pre.
  intros Hn Ho. destruct (isNavbar h); simpl in *; split.
  - now apply Hn.
  - intros Hin. apply Ho in Hin. discriminate Hin.
  - now apply Ho.
  - intros Hin. apply Hn in Hin. discriminate Hin.
Qed.

Lemma base_class_exactly_one_witness :
  In "navbar-nav" (derivedClasses Sample.inNavbar None ∅) /\
  ~ In "nav" (derivedClasses Sample.inNavbar None ∅).
Proof.
  pose proof (base_class_exactly_one Sample.inNavbar None ∅) as H.
  vm_compute in H. vm_compute. apply H; discriminate.
Defined.

(** ** Navbar context before card context *)

(** C3, as stated, fails: with both contexts present an explicit
    [navbar={false}] makes the component not navbar-hosted. *)
Lemma both_contexts_not_hosted :
  let p : Props := {[ "navbar" := VBool false ]} in
  is_some (navbarContext Sample.inNavbarAndCardHeader) = true /\
  is_some (cardContext Sample.inNavbarAndCardHeader) = true /\
  isHostedInNavbar Sample.inNavbarAndCardHeader None p = false.
Proof. vm_compute. repeat split. Qed.

(** C3, amended. With both contexts present, [isHostedInNavbar] is the
    [navbar] prop when supplied and true otherwise; the card-header
    context is not consulted: the card-header prefix stays unset, its
    class entry is off, and the whole render is the one obtained under
    any other card context (or none). *)
Theorem navbar_context_dominates amb held (p : Props) ref nc cc :
  navbarContext amb = Some nc ->
  cardContext amb = Some cc ->
  isHostedInNavbar amb held p =
    match get_bool p "navbar" with Some b => b | None => true end
  /\ cardHeaderBsPrefix (hosting (render amb held p ref)) = None
  /\ In (cardHeaderClass (hosting (render amb held p ref)) (get_variant p "variant"),
         false)
        (classEntries (ownPrefix (render amb held p ref))
           (hosting (render amb held p ref))
           (get_variant p "variant") (get_bool p "fill")
           (get_bool p "justify") (get_bool p "navbarScroll"))
  /\ (forall c, render (withCardContext amb c) held p ref = render amb held p ref).
Proof.
  intros Hnav Hcard.
  assert (Hh : forall c, resolveHosting (withCardContext amb c) (get_bool p "navbar")
                         = resolveHosting amb (get_bool p "navbar")).
  { intros c. unfold resolveHosting, withCardContext. simpl. now rewrite Hnav. }
  assert (Hp : cardHeaderBsPrefix (hosting (render amb held p ref)) = None).
  { rewrite RenderFacts.hosting_render. unfold resolveHosting. now rewrite Hnav. }
  split; [|split; [|split]].
  - rewrite RenderFacts.isHostedInNavbar_eq. now rewrite Hnav.
  - exact Hp.
  - unfold classEntries. rewrite Hp. simpl. tauto.
  - intros c. unfold render. unfold resolveHosting, withCardContext; simpl.
    rewrite Hnav. reflexivity.
Qed.

Lemma navbar_context_dominates_witness :
  isHostedInNavbar Sample.inNavbarAndCardHeader None
    ({[ "variant" := VString "tabs" ]} : Props) = true
  /\ derivedClasses Sample.inNavbarAndCardHeader None
       ({[ "variant" := VString "tabs" ]} : Props)
     = derivedClasses Sample.inNavbar None ({[ "variant" := VString "tabs" ]} : Props).
Proof.
  destruct (navbar_context_dominates Sample.inNavbarAndCardHeader None
              ({[ "variant" := VString "tabs" ]} : Props) None
              {| NavbarContext.bsPrefix := "navbar" |}
              {| CardContext.cardHeaderBsPrefix := "card-header" |} eq_refl eq_refl)
    as (Hhost & _ & _ & Hsame).
  split.
  - rewrite Hhost. reflexivity.
  - unfold derivedClasses. rewrite <- (Hsame None). reflexivity.
Defined.

(** ** The card-header class *)

(** C1. Inside a card header and without a [variant], the entry
    [`${cardHeaderBsPrefix}-${variant}`] is still switched on by
    [!!cardHeaderBsPrefix] alone, and the class [card-header-undefined]
    is derived. The entry after it, [`${bsPrefix}-${variant}`], is
    guarded by [!!variant]. *)
Lemma card_header_class_without_variant :
  get_variant (∅ : Props) "variant" = None /\
  cardHeaderClass (hosting (render Sample.inCardHeader None ∅ None)) None
    = "card-header-undefined" /\
  derivedClasses Sample.inCardHeader None ∅ = [ "nav"; "card-header-undefined" ] /\
  className (render Sample.inCardHeader None ∅ None) = "nav card-header-undefined".
Proof. vm_compute. repeat split. Qed.

(** ** Validation of [justify] *)

Module ValidateFacts.

Lemma lookup_justify (p : Props) v :
  p !! "justify" = Some v -> resolveDefaultProps p !! "justify" = Some v.
Proof. intros H. unfold resolveDefaultProps. now apply lookup_union_Some_l. Qed.

Lemma lookup_navbar (p : Props) :
  resolveDefaultProps p !! "navbar" = p !! "navbar".
Proof.
  unfold resolveDefaultProps. rewrite lookup_union_l; [reflexivity|].
  reflexivity.
Qed.

End ValidateFacts.

(** C2, as stated, fails: inside a navbar and without a [navbar] prop
    the component is navbar-hosted, and [justify = true] passes
    validation. *)
Lemma justify_in_navbar_context_passes :
  let p : Props := {[ "justify" := VBool true ]} in
  isHostedInNavbar Sample.inNavbar None p = true /\
  validate p = None.
Proof. vm_compute. split; reflexivity. Qed.

(** C2, amended. Validation reads the props only. With [justify = true]
    it reports the configuration error exactly when the own [navbar]
    prop is truthy, whatever the ambient contexts are; navbar hosting
    that is only inferred from the navbar context is not rejected. *)
Theorem validate_justify_navbar (p : Props) :
  p !! "justify" = Some (VBool true) ->
  validate p =
    if truthy (p !! "navbar")
    then Some (ConfigurationError "justify navbar `Nav`s are not supported")
    else None.
Proof.
  intros Hj. unfold validate, propTypes_justify, all, PropTypes_bool, justifyNavbar.
  rewrite (ValidateFacts.lookup_justify p _ Hj), ValidateFacts.lookup_navbar.
  simpl. destruct (truthy (p !! "navbar")); reflexivity.
Qed.

Lemma validate_justify_navbar_witness :
  validate ({[ "justify" := VBool true; "navbar" := VBool true ]} : Props)
  = Some (ConfigurationError "justify navbar `Nav`s are not supported").
Proof.
  rewrite (validate_justify_navbar
             ({[ "justify" := VBool true; "navbar" := VBool true ]} : Props));
    vm_compute; reflexivity.
Defined.

(** ** Props that are passed on *)

Module ForwardFacts.

Lemma lookup_restProps (o : Props) k :
  ~ In k destructured -> restProps o !! k = o !! k.
Proof.
  unfold restProps. induction destructured as [|n ns IH]; simpl; [reflexivity|].
  intros Hk. rewrite lookup_delete_ne by tauto. apply IH. tauto.
Qed.

Lemma lookup_restProps_gone (o : Props) k :
  In k destructured -> restProps o !! k = None.
Proof.
  unfold restProps. induction destructured as [|n ns IH]; simpl; [tauto|].
  intros [->|Hk]; [apply lookup_delete_eq|].
  destruct (decide (n = k)) as [->|Hne]; [apply lookup_delete_eq|].
  rewrite lookup_delete_ne by exact Hne. now apply IH.
Qed.

End ForwardFacts.

(** C7. Every incoming prop whose name is not a recognised one reaches
    the attribute object of [AbstractNav] under the same name and with
    the same value. *)
Theorem unrecognized_props_forwarded amb held (p : Props) ref k v :
  ~ In k recognized ->
  p !! k = Some v ->
  attributes (Nav amb held p ref) !! k = Some v.
Proof.
  intros Hk Hp. unfold Nav. simpl.
  apply lookup_union_Some_l.
  rewrite ForwardFacts.lookup_restProps.
  - rewrite HookFacts.lookup_other; [exact Hp| | |];
      intros ->; apply Hk; unfold recognized; simpl; tauto.
  - intros Hin. apply Hk. unfold recognized. apply in_or_app. now left.
Qed.

Lemma unrecognized_props_forwarded_witness :
  attributes (Nav Sample.inNavbar None
                ({[ "role" := VString "tablist"; "fill" := VBool true ]} : Props)
                None) !! "role"
  = Some (VString "tablist").
Proof.
  apply (unrecognized_props_forwarded Sample.inNavbar None
           ({[ "role" := VString "tablist"; "fill" := VBool true ]} : Props)
           None "role" (VString "tablist")).
  - vm_compute. intros H. repeat (destruct H as [H|H]; [discriminate H|]). exact H.
  - vm_compute. reflexivity.
Defined.

(** ** The explicit attributes of the element *)

Module ElementFacts.

Lemma lookup_attr name (v : option value) k :
  attr name v !! k = if decide (name = k) then v else None.
Proof.
  unfold attr. destruct v as [x|].
  - destruct (decide (name = k)) as [->|Hne].
    + apply lookup_singleton_eq.
    + now apply lookup_singleton_ne.
  - rewrite lookup_empty. now destruct (decide (name = k)).
Qed.

(** [activeKey={activeKey}] is not overridden by the spread props. *)
Lemma attributes_activeKey amb held (p : Props) ref :
  attributes (Nav amb held p ref) !! "activeKey" = Uncontrolled.resolve p held.
Proof.
  unfold Nav. simpl. rewrite lookup_union.
  rewrite ForwardFacts.lookup_restProps_gone by (simpl; tauto).
  rewrite !lookup_union, !lookup_attr. simpl.
  rewrite HookFacts.lookup_activeKey.
  now destruct (Uncontrolled.resolve p held).
Qed.

(** [className={classNames(...)}] is not overridden either. *)
Lemma attributes_className amb held (p : Props) ref :
  attributes (Nav amb held p ref) !! "className"
  = Some (VString (className (render amb held p ref))).
Proof.
  unfold Nav. simpl. rewrite lookup_union.
  rewrite ForwardFacts.lookup_restProps_gone by (simpl; tauto).
  rewrite !lookup_union, !lookup_attr. simpl. reflexivity.
Qed.

End ElementFacts.

(** ** The active key *)

(** C8. In controlled mode the [activeKey] attribute handed to
    [AbstractNav] is the supplied value, whatever value is held. *)
Theorem controlled_activeKey_verbatim amb held (p : Props) ref v :
  p !! "activeKey" = Some v ->
  Uncontrolled.resolve p held = Some v /\
  attributes (Nav amb held p ref) !! "activeKey" = Some v.
Proof.
  intros Hp.
  assert (Hr : Uncontrolled.resolve p held = Some v).
  { unfold Uncontrolled.resolve. now rewrite Hp. }
  split; [exact Hr|]. now rewrite ElementFacts.attributes_activeKey.
Qed.

Lemma controlled_activeKey_verbatim_witness :
  attributes (Nav Sample.freestanding (Some (VString "stale"))
                ({[ "activeKey" := VString "home" ]} : Props) None) !! "activeKey"
  = Some (VString "home").
Proof.
  apply (controlled_activeKey_verbatim Sample.freestanding
           (Some (VString "stale"))
           ({[ "activeKey" := VString "home" ]} : Props) None (VString "home")).
  vm_compute. reflexivity.
Defined.

Module UncontrolledFacts.
Import Uncontrolled.

Lemma selects_cons (p : Props) held k ks :
  selects p held (k :: ks) =
  (fst (selects p (fst (select p held k)) ks),
   snd (select p held k) ++ snd (selects p (fst (select p held k)) ks)).
Proof.
  cbn [selects]. destruct (select p held k) as [h1 c1]. cbn [fst snd].
  now destruct (selects p h1 ks).
Qed.

Lemma selects_app (p : Props) held ks1 ks2 :
  selects p held (ks1 ++ ks2) =
  (fst (selects p (fst (selects p held ks1)) ks2),
   snd (selects p held ks1) ++ snd (selects p (fst (selects p held ks1)) ks2)).
Proof.
  revert held. induction ks1 as [|k ks1 IH]; intros held.
  - cbn [app selects fst snd]. now destruct (selects p held ks2).
  - rewrite <- List.app_comm_cons, !selects_cons, IH. cbn [fst snd].
    now rewrite List.app_assoc.
Qed.

Lemma selects_one (p : Props) held k :
  selects p held [k] =
  (if controlled p then held else Some k,
   match p !! "onSelect" with
   | Some f => [ {| callee := f; selected := k |} ]
   | None => []
   end).
Proof. rewrite selects_cons. cbn [selects fst snd]. unfold select. cbn [fst snd]. now rewrite List.app_nil_r. Qed.

End UncontrolledFacts.

(** C9. In uncontrolled mode the held value starts as [defaultActiveKey]
    (absent when there is none); after the [n]-th selection event it is
    the key of that event, the event adds one call of the caller's
    [onSelect] with that same key when there is an [onSelect] and none
    otherwise, and the next render hands the key to [AbstractNav]. *)
Theorem uncontrolled_echo (p : Props) (ks : list value) n k :
  Uncontrolled.controlled p = false ->
  ks !! n = Some k ->
  let before := Uncontrolled.selects p (Uncontrolled.mount p) (take n ks) in
  let after := Uncontrolled.selects p (Uncontrolled.mount p) (take (S n) ks) in
  Uncontrolled.resolve p (Uncontrolled.mount p) = p !! "defaultActiveKey" /\
  fst after = Some k /\
  snd after = snd before ++
     match p !! "onSelect" with
     | Some f => [ {| Uncontrolled.callee := f; Uncontrolled.selected := k |} ]
     | None => []
     end /\
  forall amb ref, attributes (Nav amb (fst after) p ref) !! "activeKey" = Some k.
Proof.
  intros Hu Hk before after. subst before after.
  assert (Hnone : p !! "activeKey" = None).
  { unfold Uncontrolled.controlled in Hu. now destruct (p !! "activeKey"). }
  rewrite (take_S_r _ _ _ Hk), UncontrolledFacts.selects_app,
    UncontrolledFacts.selects_one, Hu. cbn [fst snd].
  split; [|split; [reflexivity|split; [reflexivity|]]].
  - unfold Uncontrolled.resolve, Uncontrolled.mount. now rewrite Hnone.
  - intros amb ref. rewrite ElementFacts.attributes_activeKey.
    unfold Uncontrolled.resolve. now rewrite Hnone.
Qed.

Lemma uncontrolled_echo_witness :
  let p : Props := {[ "defaultActiveKey" := VString "a"; "onSelect" := VObject 1 ]} in
  Uncontrolled.selects p (Uncontrolled.mount p) [ VString "b" ]
  = (Some (VString "b"),
     [ {| Uncontrolled.callee := VObject 1; Uncontrolled.selected := VString "b" |} ]).
Proof.
  intros p.
  destruct (uncontrolled_echo p [ VString "b" ] 0 (VString "b") eq_refl eq_refl)
    as (_ & Hheld & Hcalls & _).
  change (take 1 [ VString "b" ]) with [ VString "b" ] in Hheld, Hcalls.
  rewrite (surjective_pairing (Uncontrolled.selects _ _ _)), Hheld, Hcalls.
  reflexivity.
Defined.

(** ** The caller's class name *)

(** C10. A [className] supplied by the caller opens the class string
    handed to [AbstractNav]; the derived classes follow it, separated by
    one space when both parts are non-empty. *)
Theorem className_preserved amb held (p : Props) ref s :
  get_string p "className" = Some s ->
  className (render amb held p ref) =
    s +:+
    match derivedClasses amb held p with
    | [] => ""
    | _ :: _ => if String.eqb s "" then "" else " "
    end +:+
    String.concat " " (derivedClasses amb held p)
  /\ attributes (Nav amb held p ref) !! "className"
     = Some (VString (className (render amb held p ref))).
Proof.
  intros Hs. split; [|apply ElementFacts.attributes_className].
  rewrite RenderFacts.className_render, Hs. unfold derivedClasses.
  rewrite (RenderFacts.classDict_indep amb held p ref held None).
  unfold classNames, classList. simpl. rewrite List.app_nil_r.
  destruct (String.eqb s "") eqn:E.
  - apply String.eqb_eq in E. subst s. simpl.
    now destruct (ClassDict.truthy_keys _).
  - simpl. destruct (ClassDict.truthy_keys _) as [|d ds]; simpl.
    + now rewrite StrFacts.app_empty_r.
    + reflexivity.
Qed.

Lemma className_preserved_witness :
  className (render Sample.inNavbar None
               ({[ "className" := VString "me-auto"; "fill" := VBool true ]} : Props)
               None)
  = "me-auto navbar-nav nav-fill".
Proof.
  assert (Hs : get_string
                 ({[ "className" := VString "me-auto"; "fill" := VBool true ]} : Props)
                 "className" = Some "me-auto") by (vm_compute; reflexivity).
  destruct (className_preserved Sample.inNavbar None _ None "me-auto" Hs) as [H _].
  rewrite H. vm_compute. reflexivity.
Defined.

(** * Further properties of the component *)

(** ** More on class names and object literals *)

Module StrMore.

Lemma app_inv_tail (a b s : string) : a +:+ s = b +:+ s -> a = b.
Proof.
  intros H. apply (f_equal list_ascii_of_string) in H.
  rewrite !StrFacts.chars_app in H. apply List.app_inv_tail in H.
  rewrite <- (string_of_list_ascii_of_string a).
  rewrite <- (string_of_list_ascii_of_string b). now rewrite H.
Qed.

End StrMore.

Module DistinctMore.

Section Suffixes.
Variables (x y : string) (v : option Variant) (h : Hosting).

Lemma justified_fill : justifiedClass x <> fillClass y.
Proof. unfold justifiedClass, fillClass. suffix_clash. Qed.

Lemma justified_variant : justifiedClass x <> variantClass y v.
Proof.
  unfold justifiedClass, variantClass.
  destruct (Distinct.variantSuffix_cases v) as [-> | [-> | ->]]; suffix_clash.
Qed.

Lemma fill_variant : fillClass x <> variantClass y v.
Proof.
  unfold fillClass, variantClass.
  destruct (Distinct.variantSuffix_cases v) as [-> | [-> | ->]]; suffix_clash.
Qed.

Lemma justified_cardHeader : justifiedClass x <> cardHeaderClass h v.
Proof.
  unfold justifiedClass, cardHeaderClass.
  destruct (Distinct.variantSuffix_cases v) as [-> | [-> | ->]]; suffix_clash.
Qed.

Lemma fill_cardHeader : fillClass x <> cardHeaderClass h v.
Proof.
  unfold fillClass, cardHeaderClass.
  destruct (Distinct.variantSuffix_cases v) as [-> | [-> | ->]]; suffix_clash.
Qed.

(** The variant class and the card-header class end alike: they are the
    same class exactly when their prefixes are. *)
Lemma variant_cardHeader :
  x <> tpl (cardHeaderBsPrefix h) -> variantClass x v <> cardHeaderClass h v.
Proof.
  intros Hx H. apply Hx. unfold variantClass, cardHeaderClass in H.
  now apply StrMore.app_inv_tail in H.
Qed.
End Suffixes.

End DistinctMore.

#[export] Hint Resolve
  DistinctMore.justified_fill DistinctMore.justified_variant
  DistinctMore.fill_variant DistinctMore.justified_cardHeader
  DistinctMore.fill_cardHeader DistinctMore.variant_cardHeader
  : classnames.

(** Closes a goal that has an equation between two class names that
    cannot coincide. *)
Ltac now_clash H :=
  match type of H with
  | ?b = ?a =>
      first [ assert (b <> a) by (auto with classnames; congruence); contradiction
            | assert (a <> b) by (auto with classnames; congruence); congruence ]
  end.

Module ClassDictMore.
Import ClassDict.

Lemma set_fresh k v (d : t) : ~ In k (map fst d) -> set k v d = d ++ [(k, v)].
Proof.
  induction d as [|[k0 v0] d IH]; simpl; intros Hk; [reflexivity|].
  destruct (String.eqb k0 k) eqn:E.
  - apply String.eqb_eq in E. tauto.
  - rewrite IH by tauto. reflexivity.
Qed.

Lemma fold_fresh (es : list (string * bool)) (d : t) :
  List.NoDup (map fst (d ++ es)) ->
  fold_left (fun d e => set (fst e) (snd e) d) es d = d ++ es.
Proof.
  revert d. induction es as [|[k v] es IH]; intros d Hd; simpl.
  - now rewrite List.app_nil_r.
  - replace (d ++ (k, v) :: es) with ((d ++ [(k, v)]) ++ es) in *
      by (now rewrite <- List.app_assoc).
    rewrite set_fresh.
    + now apply IH.
    + rewrite !List.map_app in Hd. apply List.NoDup_app_remove_r in Hd.
      simpl in Hd. apply List.NoDup_remove_2 in Hd.
      now rewrite List.app_nil_r in Hd.
Qed.

(** An object literal whose keys are all different keeps its entries as
    written. *)
Lemma literal_distinct es : List.NoDup (map fst es) -> literal es = es.
Proof. intros H. unfold literal. now rewrite fold_fresh. Qed.

Lemma keys_literal es k : In k (map fst (literal es)) -> In k (map fst es).
Proof.
  unfold literal.
  assert (H : forall d, In k (map fst (fold_left
                 (fun d e => set (fst e) (snd e) d) es d)) ->
               In k (map fst d) \/ In k (map fst es)).
  { induction es as [|[k0 v0] es IH]; intros d Hin; simpl in *; [tauto|].
    apply IH in Hin as [Hin|Hin]; [|tauto].
    rewrite ClassDictFacts.keys_set in Hin.
    destruct (is_some (get d k0)); [tauto|].
    apply in_app_or in Hin as [Hin|[<-|[]]]; tauto. }
  intros Hin. apply H in Hin as [[]|Hin]. exact Hin.
Qed.

Lemma truthy_keys_sub (d : t) k : In k (truthy_keys d) -> In k (map fst d).
Proof.
  unfold truthy_keys. intros Hin.
  apply in_map_iff in Hin as [e [He Hin]]. apply filter_In in Hin as [Hin _].
  apply in_map_iff. now exists e.
Qed.

Lemma NoDup_truthy_keys (d : t) :
  List.NoDup (map fst d) -> List.NoDup (truthy_keys d).
Proof.
  unfold truthy_keys. induction d as [|[k v] d IH]; simpl; intros Hd.
  - constructor.
  - apply List.NoDup_cons_iff in Hd as [Hk Hd].
    destruct v; simpl; [|now apply IH].
    constructor; [|now apply IH].
    intros Hin. apply Hk. now apply (truthy_keys_sub d k).
Qed.

End ClassDictMore.

(** ** The classes built on the own prefix *)

(** X1. The class [`${bsPrefix}-${variant}`] (line 165) is in the
    composed class set exactly when a variant is set; without a variant
    the name reads [{bsPrefix}-undefined] and is left out. *)
Theorem variant_class_iff amb held (p : Props) :
  In (variantClass (ownPrefix (render amb held p None)) (get_variant p "variant"))
     (derivedClasses amb held p)
  <-> exists v, get_variant p "variant" = Some v.
Proof.
  rewrite RenderFacts.In_derivedClasses.
  set (h := hosting _). set (pre := ownPrefix _).
  unfold classEntries. cbn [rev app].
  last_entry (variantClass pre (get_variant p "variant")).
  destruct (get_variant p "variant") as [v|]; simpl; split.
  - eauto.
  - reflexivity.
  - discriminate.
  - intros [v Hv]. discriminate Hv.
Qed.

(** X2. The class [`${bsPrefix}-fill`] (line 166) is in the composed
    class set exactly when [fill] is true. *)
Theorem fill_class_iff amb held (p : Props) :
  In (fillClass (ownPrefix (render amb held p None))) (derivedClasses amb held p)
  <-> get_bool p "fill" = Some true.
Proof.
  rewrite RenderFacts.In_derivedClasses.
  set (h := hosting _). set (pre := ownPrefix _).
  unfold classEntries. cbn [rev app]. last_entry (fillClass pre).
  destruct (get_bool p "fill") as [[|]|]; simpl; split; congruence.
Qed.

(** X3. The class [`${bsPrefix}-justified`] (line 167) is in the composed
    class set exactly when [justify] is true. *)
Theorem justified_class_iff amb held (p : Props) :
  In (justifiedClass (ownPrefix (render amb held p None)))
     (derivedClasses amb held p)
  <-> get_bool p "justify" = Some true.
Proof.
  rewrite RenderFacts.In_derivedClasses.
  set (h := hosting _). set (pre := ownPrefix _).
  unfold classEntries. cbn [rev app]. last_entry (justifiedClass pre).
  destruct (get_bool p "justify") as [[|]|]; simpl; split; congruence.
Qed.

(** ** The card-header class, as the code derives it *)

(** X4. Outside a navbar context and inside a card header whose prefix
    is not the own prefix, the class [`${cardHeaderBsPrefix}-${variant}`]
    (line 164) is in the composed class set exactly when the card-header
    prefix is not the empty string, with or without a variant (without
    one the name ends in [-undefined]). *)
Theorem cardHeader_class_iff amb held (p : Props) cc :
  navbarContext amb = None ->
  cardContext amb = Some cc ->
  ownPrefix (render amb held p None) <> CardContext.cardHeaderBsPrefix cc ->
  In (CardContext.cardHeaderBsPrefix cc +:+ variantSuffix (get_variant p "variant"))
     (derivedClasses amb held p)
  <-> CardContext.cardHeaderBsPrefix cc <> "".
Proof.
  intros Hnav Hcard Hpre.
  assert (Hh : hosting (render amb held p None) =
               {| navbarBsPrefix := None;
                  cardHeaderBsPrefix := Some (CardContext.cardHeaderBsPrefix cc);
                  isNavbar := false |}).
  { rewrite RenderFacts.hosting_render. unfold resolveHosting.
    now rewrite Hnav, Hcard. }
  rewrite RenderFacts.In_derivedClasses. revert Hpre. rewrite Hh.
  set (h := Build_Hosting _ _ _). set (pre := ownPrefix _). intros Hpre.
  unfold classEntries. cbn [rev app].
  change (CardContext.cardHeaderBsPrefix cc +:+ variantSuffix (get_variant p "variant"))
    with (cardHeaderClass h (get_variant p "variant")).
  last_entry (cardHeaderClass h (get_variant p "variant")).
  simpl. destruct (String.eqb_spec (CardContext.cardHeaderBsPrefix cc) "") as [E|E];
    simpl; split; congruence.
Qed.

Lemma cardHeader_class_iff_witness :
  In "card-header-tabs"
     (derivedClasses Sample.inCardHeader None
        ({[ "variant" := VString "tabs" ]} : Props)).
Proof.
  assert (Hpre : ownPrefix (render Sample.inCardHeader None
                   ({[ "variant" := VString "tabs" ]} : Props) None)
                 <> "card-header") by (vm_compute; discriminate).
  pose proof (proj2 (cardHeader_class_iff Sample.inCardHeader None
           ({[ "variant" := VString "tabs" ]} : Props)
           {| CardContext.cardHeaderBsPrefix := "card-header" |}
           eq_refl eq_refl Hpre)) as H.
  vm_compute in H. vm_compute. apply H. discriminate.
Defined.

(** ** The class set as a whole *)

(** X5. The composed class set never holds a class twice, and every
    class in it is one of the seven names written at lines 161-167. *)
Theorem derivedClasses_NoDup_sub amb held (p : Props) :
  List.NoDup (derivedClasses amb held p) /\
  forall c, In c (derivedClasses amb held p) ->
    In c (map fst (classEntries (ownPrefix (render amb held p None))
                     (hosting (render amb held p None))
                     (get_variant p "variant") (get_bool p "fill")
                     (get_bool p "justify") (get_bool p "navbarScroll"))).
Proof.
  unfold derivedClasses. rewrite RenderFacts.classDict_render. split.
  - apply ClassDictMore.NoDup_truthy_keys. apply NoDup_ListNoDup.
    apply ClassDictFacts.NoDup_literal.
  - intros c Hc. apply ClassDictMore.keys_literal.
    now apply ClassDictMore.truthy_keys_sub.
Qed.

(** X6. When the own prefix is none of the names built from the ambient
    prefixes, the composed class set is the list of the entries of lines
    161-167 whose condition holds, in source order. *)
Theorem derivedClasses_in_source_order amb held (p : Props) :
  let r := render amb held p None in
  ownPrefix r <> navClass (hosting r) ->
  ownPrefix r <> navScrollClass (hosting r) ->
  ownPrefix r <> cardHeaderClass (hosting r) (get_variant p "variant") ->
  ownPrefix r <> tpl (cardHeaderBsPrefix (hosting r)) ->
  derivedClasses amb held p =
  map fst (List.filter snd
    (classEntries (ownPrefix r) (hosting r) (get_variant p "variant")
       (get_bool p "fill") (get_bool p "justify") (get_bool p "navbarScroll"))).
Proof.
  intros r Hnav Hscroll Hcard Hpre. subst r.
  unfold derivedClasses. rewrite RenderFacts.classDict_render.
  revert Hnav Hscroll Hcard Hpre.
  set (h := hosting _). set (pre := ownPrefix _). intros Hnav Hscroll Hcard Hpre.
  rewrite ClassDictMore.literal_distinct; [reflexivity|].
  unfold classEntries. cbn [map fst].
  repeat (apply List.NoDup_cons;
          [cbn [In]; intros Hin;
           repeat (destruct Hin as [Hin|Hin]; [now_clash Hin|]);
           exact Hin |]).
  apply List.NoDup_nil.
Qed.

Lemma derivedClasses_in_source_order_witness :
  derivedClasses Sample.inNavbar None
    ({[ "variant" := VString "pills"; "justify" := VBool true ]} : Props)
  = [ "navbar-nav"; "nav-pills"; "nav-justified" ].
Proof.
  rewrite (derivedClasses_in_source_order Sample.inNavbar None
             ({[ "variant" := VString "pills"; "justify" := VBool true ]} : Props));
    vm_compute; first [reflexivity | discriminate].
Defined.

(** X7. A navbar-hosted render carries the class [{prefix}-nav] built
    from the prefix of the navbar context: hosting implies that the
    context is there, so the name never reads [undefined-nav]. *)
Theorem hosted_has_navbar_class amb held (p : Props) :
  isHostedInNavbar amb held p = true ->
  exists nc, navbarContext amb = Some nc /\
    In (NavbarContext.bsPrefix nc +:+ "-nav") (derivedClasses amb held p).
Proof.
  intros Hhost. pose proof Hhost as Hctx.
  rewrite RenderFacts.isHostedInNavbar_eq in Hctx.
  destruct (navbarContext amb) as [nc|] eqn:Enc; [|discriminate Hctx].
  exists nc. split; [reflexivity|].
  assert (Hh : navbarBsPrefix (hosting (render amb held p None))
               = Some (NavbarContext.bsPrefix nc)).
  { rewrite RenderFacts.hosting_render. unfold resolveHosting. now rewrite Enc. }
  rewrite RenderFacts.In_derivedClasses.
  unfold isHostedInNavbar in Hhost. revert Hhost Hh.
  set (h := hosting _). set (pre := ownPrefix _). intros Hhost Hh.
  change (NavbarContext.bsPrefix nc +:+ "-nav")
    with (tpl (Some (NavbarContext.bsPrefix nc)) +:+ "-nav").
  rewrite <- Hh. fold (navClass h).
  unfold classEntries. cbn [rev app]. last_entry (navClass h).
  now rewrite Hhost.
Qed.

Lemma hosted_has_navbar_class_witness :
  exists nc, navbarContext Sample.inNavbar = Some nc /\
    In (NavbarContext.bsPrefix nc +:+ "-nav")
       (derivedClasses Sample.inNavbar None (∅ : Props)).
Proof.
  apply (hosted_has_navbar_class Sample.inNavbar None (∅ : Props)).
  vm_compute. reflexivity.
Defined.

(** ** Renders that agree *)

Module AgreeFacts.
Import Uncontrolled.

Lemma lookup_defaultActiveKey (p : Props) held :
  useUncontrolled p held !! "defaultActiveKey" = None.
Proof.
  unfold useUncontrolled. rewrite lookup_insert_ne by discriminate.
  destruct (resolve p held).
  - rewrite lookup_insert_ne by discriminate.
    rewrite lookup_delete_ne by discriminate. apply lookup_delete_eq.
  - rewrite lookup_delete_ne by discriminate. apply lookup_delete_eq.
Qed.

Lemma lookup_onSelect (p : Props) held :
  useUncontrolled p held !! "onSelect" = Some (VNotifier (p !! "onSelect")).
Proof. unfold useUncontrolled. apply lookup_insert_eq. Qed.

(** Props that agree on a name, on [activeKey] and on [onSelect] give
    hook results that agree on that name. *)
Lemma lookup_congr (p p' : Props) held k :
  p !! k = p' !! k ->
  p !! "activeKey" = p' !! "activeKey" ->
  p !! "onSelect" = p' !! "onSelect" ->
  useUncontrolled p held !! k = useUncontrolled p' held !! k.
Proof.
  intros Hk Ha Ho.
  destruct (decide (k = "onSelect")) as [->|H1];
    [now rewrite !lookup_onSelect, Ho|].
  destruct (decide (k = "activeKey")) as [->|H2];
    [rewrite !HookFacts.lookup_activeKey; unfold resolve; now rewrite Ha|].
  destruct (decide (k = "defaultActiveKey")) as [->|H3];
    [now rewrite !lookup_defaultActiveKey|].
  now rewrite !HookFacts.lookup_other.
Qed.

Lemma restProps_congr (o o' : Props) :
  (forall k, ~ In k destructured -> o !! k = o' !! k) ->
  restProps o = restProps o'.
Proof.
  intros H. apply map_eq. intros k.
  destruct (in_dec string_dec k destructured) as [Hin|Hout].
  - now rewrite !ForwardFacts.lookup_restProps_gone.
  - rewrite !ForwardFacts.lookup_restProps by exact Hout. now apply H.
Qed.

(** Two props objects that differ only in the four styling flags and
    lead to the same class dictionary are rendered alike. *)
Lemma Nav_agree amb held (p p' : Props) ref :
  (forall k, ~ In k ["fill"; "justify"; "navbar"; "navbarScroll"] ->
             p !! k = p' !! k) ->
  classDict (render amb held p ref) = classDict (render amb held p' ref) ->
  Nav amb held p ref = Nav amb held p' ref.
Proof.
  intros Hp Hd.
  assert (Ho : forall k, ~ In k ["fill"; "justify"; "navbar"; "navbarScroll"] ->
             useUncontrolled p held !! k = useUncontrolled p' held !! k).
  { intros k Hk. apply lookup_congr; apply Hp; try exact Hk;
      simpl; intros H; repeat (destruct H as [H|H]; [discriminate H|]); exact H. }
  assert (Hx : forall k, In k ["as"; "className"; "children"; "activeKey"] ->
             useUncontrolled p held !! k = useUncontrolled p' held !! k).
  { intros k Hk. apply Ho. simpl in *. intros H.
    repeat (destruct Hk as [<-|Hk];
            [repeat (destruct H as [H|H]; [discriminate H|]); exact H|]).
    exact Hk. }
  assert (Hr : restProps (useUncontrolled p held)
               = restProps (useUncontrolled p' held)).
  { apply restProps_congr. intros k Hk. apply Ho. intros H. apply Hk.
    simpl in *. tauto. }
  unfold Nav, render in *. cbn [element classDict] in *.
  rewrite Hd, Hr. unfold get_string.
  rewrite (Hx "as"), (Hx "className"), (Hx "children"), (Hx "activeKey")
    by (simpl; tauto).
  reflexivity.
Qed.

End AgreeFacts.

(** ** Props without effect *)

Module InsertFacts.

Lemma get_bool_insert_ne (p : Props) k v name :
  k <> name -> get_bool (<[k := v]> p) name = get_bool p name.
Proof. intros H. unfold get_bool. now rewrite lookup_insert_ne. Qed.

Lemma get_string_insert_ne (p : Props) k v name :
  k <> name -> get_string (<[k := v]> p) name = get_string p name.
Proof. intros H. unfold get_string. now rewrite lookup_insert_ne. Qed.

Lemma get_variant_insert_ne (p : Props) k v name :
  k <> name -> get_variant (<[k := v]> p) name = get_variant p name.
Proof. intros H. unfold get_variant. now rewrite lookup_insert_ne. Qed.

Lemma lookup_defaults_other (p : Props) k :
  k <> "justify" -> k <> "fill" -> resolveDefaultProps p !! k = p !! k.
Proof.
  intros Hj Hf. unfold resolveDefaultProps, defaultProps.
  rewrite lookup_union_l; [reflexivity|].
  rewrite lookup_insert_ne by congruence. now apply lookup_singleton_ne.
Qed.

Lemma get_bool_defaults_other (p : Props) k :
  k <> "justify" -> k <> "fill" ->
  get_bool (resolveDefaultProps p) k = get_bool p k.
Proof. intros. unfold get_bool. now rewrite lookup_defaults_other. Qed.

(** A default of [false] reads like an absent flag. *)
Lemma is_true_defaults (p : Props) name :
  name = "justify" \/ name = "fill" ->
  is_true (get_bool (resolveDefaultProps p) name) = is_true (get_bool p name).
Proof.
  intros Hn. unfold get_bool, resolveDefaultProps.
  destruct (p !! name) as [x|] eqn:E.
  - now rewrite (lookup_union_Some_l _ _ _ _ E).
  - rewrite lookup_union_r by exact E.
    destruct Hn as [-> | ->]; reflexivity.
Qed.

End InsertFacts.

(** X8. Outside a navbar context the [navbar] prop has no effect at all:
    the element is the same whatever value the prop is given. *)
Theorem navbar_prop_ignored_outside_navbar amb held (p : Props) ref v :
  navbarContext amb = None ->
  Nav amb held (<["navbar" := v]> p) ref = Nav amb held p ref.
Proof.
  intros Hctx. apply AgreeFacts.Nav_agree.
  - intros k Hk. apply lookup_insert_ne. simpl in Hk. tauto.
  - rewrite !RenderFacts.classDict_render, !RenderFacts.ownPrefix_render,
      !RenderFacts.hosting_render.
    rewrite InsertFacts.get_string_insert_ne, InsertFacts.get_variant_insert_ne,
      !(InsertFacts.get_bool_insert_ne p "navbar" v "fill"),
      !(InsertFacts.get_bool_insert_ne p "navbar" v "justify"),
      !(InsertFacts.get_bool_insert_ne p "navbar" v "navbarScroll")
      by discriminate.
    unfold resolveHosting. now rewrite Hctx.
Qed.

Lemma navbar_prop_ignored_outside_navbar_witness :
  Nav Sample.inCardHeader None
    (<["navbar" := VBool true]> ({[ "fill" := VBool true ]} : Props)) None
  = Nav Sample.inCardHeader None ({[ "fill" := VBool true ]} : Props) None.
Proof.
  apply (navbar_prop_ignored_outside_navbar Sample.inCardHeader None
           ({[ "fill" := VBool true ]} : Props) None (VBool true)).
  reflexivity.
Defined.

(** X9. When the component is not navbar-hosted, [navbarScroll] has no
    effect: the element is the same whatever value the prop is given. *)
Theorem navbarScroll_ignored_when_not_hosted amb held (p : Props) ref v :
  isHostedInNavbar amb held p = false ->
  Nav amb held (<["navbarScroll" := v]> p) ref = Nav amb held p ref.
Proof.
  intros Hhost. apply AgreeFacts.Nav_agree.
  - intros k Hk. apply lookup_insert_ne. simpl in Hk. tauto.
  - unfold isHostedInNavbar in Hhost.
    rewrite RenderFacts.hosting_render in Hhost.
    rewrite !RenderFacts.classDict_render, !RenderFacts.ownPrefix_render,
      !RenderFacts.hosting_render.
    rewrite InsertFacts.get_string_insert_ne, InsertFacts.get_variant_insert_ne,
      !(InsertFacts.get_bool_insert_ne p "navbarScroll" v "fill"),
      !(InsertFacts.get_bool_insert_ne p "navbarScroll" v "justify"),
      !(InsertFacts.get_bool_insert_ne p "navbarScroll" v "navbar")
      by discriminate.
    unfold classEntries. now rewrite Hhost.
Qed.

Lemma navbarScroll_ignored_when_not_hosted_witness :
  Nav Sample.freestanding None
    (<["navbarScroll" := VBool true]> (∅ : Props)) None
  = Nav Sample.freestanding None (∅ : Props) None.
Proof.
  apply (navbarScroll_ignored_when_not_hosted Sample.freestanding None
           (∅ : Props) None (VBool true)).
  vm_compute. reflexivity.
Defined.

(** X10. Filling in [defaultProps] (lines 119-122) does not change the
    element: a [fill] or [justify] of [false] renders like an absent
    one. *)
Theorem defaultProps_do_not_change_render amb held (p : Props) ref :
  Nav amb held (resolveDefaultProps p) ref = Nav amb held p ref.
Proof.
  apply AgreeFacts.Nav_agree.
  - intros k Hk. apply InsertFacts.lookup_defaults_other;
      intros ->; simpl in Hk; tauto.
  - rewrite !RenderFacts.classDict_render, !RenderFacts.ownPrefix_render,
      !RenderFacts.hosting_render.
    unfold get_string, get_variant.
    rewrite !(InsertFacts.lookup_defaults_other p "bsPrefix"),
      !(InsertFacts.lookup_defaults_other p "variant") by discriminate.
    unfold classEntries.
    rewrite (InsertFacts.is_true_defaults p "fill"),
      (InsertFacts.is_true_defaults p "justify") by tauto.
    rewrite !(InsertFacts.get_bool_defaults_other p "navbar"),
      !(InsertFacts.get_bool_defaults_other p "navbarScroll") by discriminate.
    reflexivity.
Qed.

(** X17. A prop that is not one of the six styling props ([bsPrefix],
    [variant], [fill], [justify], [navbar], [navbarScroll]) never changes
    the composed class set. *)
Theorem other_props_do_not_change_classes amb held (p : Props) k v :
  ~ In k ["bsPrefix"; "variant"; "fill"; "justify"; "navbar"; "navbarScroll"] ->
  derivedClasses amb held (<[k := v]> p) = derivedClasses amb held p.
Proof.
  intros Hk. simpl in Hk. unfold derivedClasses.
  rewrite !RenderFacts.classDict_render, !RenderFacts.ownPrefix_render,
    !RenderFacts.hosting_render.
  rewrite InsertFacts.get_string_insert_ne, InsertFacts.get_variant_insert_ne,
    !(InsertFacts.get_bool_insert_ne p k v "fill"),
    !(InsertFacts.get_bool_insert_ne p k v "justify"),
    !(InsertFacts.get_bool_insert_ne p k v "navbar"),
    !(InsertFacts.get_bool_insert_ne p k v "navbarScroll")
    by (intros ->; tauto).
  reflexivity.
Qed.

Lemma other_props_do_not_change_classes_witness :
  derivedClasses Sample.inNavbar None
    (<["role" := VString "tablist"]> ({[ "fill" := VBool true ]} : Props))
  = derivedClasses Sample.inNavbar None ({[ "fill" := VBool true ]} : Props).
Proof.
  apply (other_props_do_not_change_classes Sample.inNavbar None
           ({[ "fill" := VBool true ]} : Props) "role" (VString "tablist")).
  simpl. intros H. repeat (destruct H as [H|H]; [discriminate H|]). exact H.
Defined.

(** ** The explicit attributes, and what is kept from the element *)

Module AttrFacts.

(** Lookup in the attribute object at a destructured name: the spread
    props have no such name, the explicit attributes answer. *)
Lemma attributes_destructured amb held (p : Props) ref k :
  In k destructured ->
  attributes (Nav amb held p ref) !! k =
    (attr "className" (Some (VString (className (render amb held p ref))))
     ∪ attr "activeKey" (Uncontrolled.resolve p held)
     ∪ attr "ref" ref
     ∪ attr "as" (Some (default (VString "div") (p !! "as")))) !! k.
Proof.
  intros Hk. unfold Nav. simpl. rewrite lookup_union.
  rewrite ForwardFacts.lookup_restProps_gone by exact Hk.
  rewrite HookFacts.lookup_activeKey.
  rewrite (HookFacts.lookup_other p held "as") by discriminate.
  now destruct (_ !! k).
Qed.

End AttrFacts.

(** X11. The attribute [as] is always there: it is the caller's [as]
    when one is supplied and ['div'] otherwise (line 126). *)
Theorem as_defaults_to_div amb held (p : Props) ref :
  attributes (Nav amb held p ref) !! "as"
  = Some (match p !! "as" with Some v => v | None => VString "div" end).
Proof.
  rewrite AttrFacts.attributes_destructured by (simpl; tauto).
  rewrite !lookup_union, !ElementFacts.lookup_attr. simpl.
  now destruct (p !! "as"), ref.
Qed.

(** X12. The props consumed for styling are not passed on: none of
    [bsPrefix], [variant], [fill], [justify], [navbar], [navbarScroll]
    and [children] is an attribute of the element; the children are
    handed over as the element's children. *)
Theorem styling_props_not_forwarded amb held (p : Props) ref :
  children (Nav amb held p ref) = p !! "children" /\
  forall k,
    In k ["bsPrefix"; "variant"; "fill"; "justify"; "navbar";
          "navbarScroll"; "children"] ->
    attributes (Nav amb held p ref) !! k = None.
Proof.
  split.
  - unfold Nav. simpl. now rewrite HookFacts.lookup_other.
  - intros k Hk.
    rewrite AttrFacts.attributes_destructured by (simpl in *; tauto).
    rewrite !lookup_union, !ElementFacts.lookup_attr.
    simpl in Hk.
    repeat (destruct Hk as [<-|Hk]; [simpl; now destruct ref|]).
    destruct Hk.
Qed.

(** X13. The forwarded ref reaches the element (line 158) whenever the
    props carry no [ref] of their own. *)
Theorem ref_forwarded amb held (p : Props) ref :
  p !! "ref" = None ->
  attributes (Nav amb held p ref) !! "ref" = ref.
Proof.
  intros Hp. unfold Nav. simpl. rewrite lookup_union.
  rewrite ForwardFacts.lookup_restProps
    by (simpl; intros H; repeat (destruct H as [H|H]; [discriminate H|]); exact H).
  rewrite HookFacts.lookup_other, Hp by discriminate.
  rewrite !lookup_union, !ElementFacts.lookup_attr. simpl.
  now destruct (Uncontrolled.useUncontrolled p held !! "activeKey"), ref.
Qed.

Lemma ref_forwarded_witness :
  attributes (Nav Sample.freestanding None (∅ : Props) (Some (VObject 7))) !! "ref"
  = Some (VObject 7).
Proof.
  apply (ref_forwarded Sample.freestanding None (∅ : Props) (Some (VObject 7))).
  reflexivity.
Defined.

(** ** The class string without a caller's class *)

(** X14. When the caller supplies no [className], the class string is
    the composed class set joined by single spaces, with nothing in
    front. *)
Theorem className_without_caller_class amb held (p : Props) ref :
  get_string p "className" = None ->
  className (render amb held p ref)
  = String.concat " " (derivedClasses amb held p).
Proof.
  intros Hs. rewrite RenderFacts.className_render, Hs. unfold derivedClasses.
  rewrite (RenderFacts.classDict_indep amb held p ref held None).
  unfold classNames, classList. simpl. now rewrite List.app_nil_r.
Qed.

Lemma className_without_caller_class_witness :
  className (render Sample.inNavbar None
               ({[ "navbarScroll" := VBool true ]} : Props) None)
  = "navbar-nav navbar-nav-scroll".
Proof.
  rewrite (className_without_caller_class Sample.inNavbar None
             ({[ "navbarScroll" := VBool true ]} : Props) None);
    vm_compute; reflexivity.
Defined.

(** ** More on the validation of [justify] *)

(** X15. A [justify] that is not a boolean is reported by
    [PropTypes.bool], the first validator of [all] (line 76); the navbar
    check is then not reached, whatever [navbar] is. *)
Theorem justify_type_error_first (p : Props) v :
  p !! "justify" = Some v ->
  (forall b, v <> VBool b) ->
  validate p = Some (InvalidPropType "justify" "boolean").
Proof.
  intros Hj Hv. unfold validate, propTypes_justify, all, PropTypes_bool.
  rewrite (ValidateFacts.lookup_justify p v Hj).
  destruct v; try reflexivity. now destruct (Hv b).
Qed.

Lemma justify_type_error_first_witness :
  validate ({[ "justify" := VString "yes"; "navbar" := VBool true ]} : Props)
  = Some (InvalidPropType "justify" "boolean").
Proof.
  apply (justify_type_error_first
           ({[ "justify" := VString "yes"; "navbar" := VBool true ]} : Props)
           (VString "yes")).
  - vm_compute. reflexivity.
  - intros b. discriminate.
Defined.

(** X16. Without [justify], which then takes its default [false]
    (line 120), or with [justify = false], validation passes whatever
    [navbar] is. *)
Theorem validate_passes_without_justify (p : Props) :
  p !! "justify" = None \/ p !! "justify" = Some (VBool false) ->
  validate p = None.
Proof.
  intros Hj. unfold validate, propTypes_justify, all, PropTypes_bool, justifyNavbar.
  assert (H : resolveDefaultProps p !! "justify" = Some (VBool false)).
  { destruct Hj as [Hj|Hj].
    - unfold resolveDefaultProps. rewrite lookup_union_r by exact Hj. reflexivity.
    - now apply ValidateFacts.lookup_justify. }
  rewrite H. reflexivity.
Qed.

Lemma validate_passes_without_justify_witness :
  validate ({[ "navbar" := VBool true ]} : Props) = None.
Proof.
  apply (validate_passes_without_justify ({[ "navbar" := VBool true ]} : Props)).
  left. vm_compute. reflexivity.
Defined.
